(** * Weather page of the homelab site: the location-to-conditions pipeline

    A shallow embedding of the [Weather] component (second document of
    [src/src/App.jsx]): the pure interpreter of condition codes
    ([getWeatherDescription], [getWeatherIcon]), the three fetchers
    ([getCoordinates], the forecast call, [fetchTideData]) and the submit
    handler [fetchWeather] that drives them and writes the component's
    state cells.

    Conventions.
    - Condition codes are integers ([Z]), as the forecast service and the
      data model have them.
    - String literals are kept byte for byte as they stand in the source
      file; the icon literals are the file's own (doubly encoded) bytes.
    - Upstream payloads are taken at the field types the services
      document (numbers, strings, integer codes and timestamps). A 2xx body
      that is not JSON, or not of the shape the code reads, is one case of
      its own ([Unusable]).
    - [await] is sequencing: one submission runs from its first statement
      to its [finally] block; overlapping submissions are not modelled. *)

From stdpp Require Import base strings pretty list gmap.

Local Open Scope Z_scope.

(** ** WeatherInterpreter: condition code to description and icon *)

Module WeatherInterpreter.

(** [const descriptions = { 0: "Clear sky", ... }]: a JS object; its
    property keys are the decimal numerals of the numbers written in the
    literal. *)
Definition descriptions : gmap string string :=
  list_to_map
    [ ("0", "Clear sky");
      ("1", "Mainly clear");
      ("2", "Partly cloudy");
      ("3", "Overcast");
      ("45", "Foggy");
      ("48", "Depositing rime fog");
      ("51", "Light drizzle");
      ("53", "Moderate drizzle");
      ("55", "Dense drizzle");
      ("61", "Slight rain");
      ("63", "Moderate rain");
      ("65", "Heavy rain");
      ("71", "Slight snow");
      ("73", "Moderate snow");
      ("75", "Heavy snow");
      ("77", "Snow grains");
      ("80", "Slight rain showers");
      ("81", "Moderate rain showers");
      ("82", "Violent rain showers");
      ("85", "Slight snow showers");
      ("86", "Heavy snow showers");
      ("95", "Thunderstorm");
      ("96", "Thunderstorm with slight hail");
      ("99", "Thunderstorm with heavy hail") ].

(** [obj[code]] for an integer [code]: the key is [String(code)], the
    decimal numeral (from 10^21 on JS switches to exponent notation; neither
    spelling of such a number is a key of [descriptions], nor the name of a
    property inherited from [Object.prototype]). *)
Definition property_key (code : Z) : string := pretty code.

(** [v || dflt] on a property read: [undefined] and the empty string are
    falsy. *)
Definition or_else (v : option string) (dflt : string) : string :=
  match v with
  | Some s => if decide (s = "") then dflt else s
  | None => dflt
  end.

(** [getWeatherDescription], App.jsx l.78-106. *)
Definition getWeatherDescription (code : Z) : string :=
  or_else (descriptions !! property_key code) "Unknown".

(** [getWeatherIcon], App.jsx l.109-120. [isDay] is the truth value the
    conditional operator sees. *)
Definition getWeatherIcon (code : Z) (isDay : bool) : string :=
  if code =? 0 then (if isDay then "‚òÄÔ∏è" else "üåô")
  else if code <=? 3 then (if isDay then "üå§Ô∏è" else "üåô")
  else if code <=? 48 then "üå´Ô∏è"
  else if code <=? 55 then "üå¶Ô∏è"
  else if code <=? 65 then "üåßÔ∏è"
  else if code <=? 77 then "üå®Ô∏è"
  else if code <=? 82 then "üåßÔ∏è"
  else if code <=? 86 then "üå®Ô∏è"
  else if code >=? 95 then "‚õàÔ∏è"
  else "üå°Ô∏è".

(** The symbols by name. Read as the UTF-8 they were before the file was
    re-encoded they are: sun, crescent moon, sun behind small cloud, fog,
    sun behind rain cloud, cloud with rain, cloud with snow, cloud with
    lightning and rain, thermometer. *)
Definition clear_day : string := "‚òÄÔ∏è".
Definition moon : string := "üåô".
Definition partly_cloudy_day : string := "üå§Ô∏è".
Definition fog : string := "üå´Ô∏è".
Definition drizzle : string := "üå¶Ô∏è".
Definition rain : string := "üåßÔ∏è".
Definition snow : string := "üå®Ô∏è".
Definition thunderstorm : string := "‚õàÔ∏è".
Definition thermometer : string := "üå°Ô∏è".

(** The nine-plus-one ranges of the design document, as a table of disjoint
    intervals with both bounds written out. Negative codes are outside every
    interval. *)
Definition in_range (lo hi code : Z) : bool := (lo <=? code) && (code <=? hi).

Definition icon_by_range (code : Z) (isDay : bool) : option string :=
  if code =? 0 then Some (if isDay then clear_day else moon)
  else if in_range 1 3 code then Some (if isDay then partly_cloudy_day else moon)
  else if in_range 4 48 code then Some fog
  else if in_range 49 55 code then Some drizzle
  else if in_range 56 65 code then Some rain
  else if in_range 66 77 code then Some snow
  else if in_range 78 82 code then Some rain
  else if in_range 83 86 code then Some snow
  else if in_range 87 94 code then Some thermometer
  else if 95 <=? code then Some thunderstorm
  else None.

(** The 24 codes of the description table, in the order of the design
    document. *)
Definition known_codes : list Z :=
  [0; 1; 2; 3; 45; 48; 51; 53; 55; 61; 63; 65; 71; 73; 75; 77; 80; 81; 82;
   85; 86; 95; 96; 99].

End WeatherInterpreter.

(** ** The runtime and the three upstream services *)

(** What the JS engine supplies and the page does not define: the numbers
    (IEEE doubles; the page only carries them around), [parseFloat], and the
    message of the [URIError] that [encodeURIComponent] raises. *)
Class JsRuntime := {
  num : Type;
  parseFloat : string → num;
  uri_malformed : string;
}.

(** Text typed into the input box: a JS string as its UTF-16 code units. *)
Definition text := list N.

Definition of_ascii (s : string) : text :=
  Ascii.N_of_ascii <$> String.list_ascii_of_string s.

Local Open Scope N_scope.

(** WhiteSpace and LineTerminator code points of ECMAScript, the ones
    [String.prototype.trim] removes. *)
Definition is_white_space (u : N) : bool :=
  (u =? 0x09) || (u =? 0x0A) || (u =? 0x0B) || (u =? 0x0C) || (u =? 0x0D)
  || (u =? 0x20) || (u =? 0xA0) || (u =? 0x1680)
  || ((0x2000 <=? u) && (u <=? 0x200A))
  || (u =? 0x2028) || (u =? 0x2029) || (u =? 0x202F) || (u =? 0x205F)
  || (u =? 0x3000) || (u =? 0xFEFF).

Fixpoint trim_start (s : text) : text :=
  match s with
  | u :: s' => if is_white_space u then trim_start s' else s
  | [] => []
  end.

Definition trim_end (s : text) : text := reverse (trim_start (reverse s)).

Definition trim (s : text) : text := trim_end (trim_start s).

Definition is_high_surrogate (u : N) : bool := (0xD800 <=? u) && (u <=? 0xDBFF).
Definition is_low_surrogate (u : N) : bool := (0xDC00 <=? u) && (u <=? 0xDFFF).

(** [encodeURIComponent] raises [URIError] exactly on a lone surrogate. *)
Fixpoint well_formed (s : text) : bool :=
  match s with
  | [] => true
  | u :: s' =>
      if is_high_surrogate u then
        match s' with
        | v :: s'' => is_low_surrogate v && well_formed s''
        | [] => false
        end
      else if is_low_surrogate u then false
      else well_formed s'
  end.

Local Close Scope N_scope.

(** How a [fetch] settles. [Unusable msg] stands for a 2xx body the code
    cannot use: [response.json()] rejects, or the parsed value lacks the
    shape the code reads and a property read raises [TypeError]; in every
    caller both raise inside the same [try], before the next effect. *)
Inductive body (A : Type) : Type :=
  | Unusable (msg : string)
  | Parsed (a : A).
Arguments Unusable {A} msg.
Arguments Parsed {A} a.

Record response (A : Type) : Type := Response { ok : bool; json : body A }.
Arguments Response {A} ok json.
Arguments ok {A} r.
Arguments json {A} r.

Inductive settled (A : Type) : Type :=
  | Rejected (msg : string)
  | Fulfilled (r : response A).
Arguments Rejected {A} msg.
Arguments Fulfilled {A} r.

(** A [Date], by its time value in milliseconds. *)
Inductive Date : Type :=
  | InvalidDate
  | DateOf (ms : Z).

(** [new Date(ms)]: TimeClip at 8.64e15 ms. *)
Definition new_Date (ms : Z) : Date :=
  if Z.abs ms <=? 8640000000000000 then DateOf ms else InvalidDate.

Section Model.
Context `{rt : JsRuntime}.

(** One match of the geocoding search ([data[0]]). *)
Record place : Type := Place {
  lat : string;
  lon : string;
  display_name : string;
}.

(** The [current] object of the forecast reply. *)
Record current_conditions : Type := Current {
  temperature_2m : num;
  relative_humidity_2m : num;
  apparent_temperature : num;
  precipitation : num;
  weather_code : Z;
  wind_speed_10m : num;
  pressure_msl : num;
  is_day : Z;
}.

Record forecast : Type := Forecast { current : current_conditions }.

(** One element of [data.extremes]. *)
Record extreme : Type := Extreme {
  type : string;
  height : num;
  dt : Z;
}.

(** The tide reply; [extremes = None] when the property is missing or
    falsy. *)
Record tide_reply : Type := TideReply { extremes : option (list extreme) }.

(** The upstream services, keyed by the parameters the page puts in the
    URL, and the clock read by [new Date()] (milliseconds). *)
Record network : Type := Network {
  geocoder : text → settled (list place);
  forecaster : num → num → settled forecast;
  tide_service : num → num → Z → Z → settled tide_reply;
  clock : Z;
}.

(** The object returned by [getCoordinates]. *)
Record location : Type := Location {
  loc_lat : num;
  loc_lon : num;
  loc_name : string;
}.

(** The object stored by [setWeatherData]. *)
Record conditions : Type := Conditions {
  c_location : string;
  c_lat : num;
  c_lon : num;
  temperature : num;
  feelsLike : num;
  humidity : num;
  windSpeed : num;
  pressure : num;
  weatherCode : Z;
  isDay : Z;
  description : string;
  icon : string;
}.

(** One element of the array stored by [setTideData]. *)
Record tide : Type := Tide {
  t_type : string;
  t_height : num;
  t_time : Date;
}.

End Model.

(** ** The component: state cells, effects, handlers *)

(** A statement completes normally or throws; of a thrown value the page
    only ever reads [.message]. *)
Inductive completion (A : Type) : Type :=
  | Normal (a : A)
  | Throw (msg : string).
Arguments Normal {A} a.
Arguments Throw {A} msg.

Section Component.
Context `{rt : JsRuntime}.

(** The [useState] cells of [Weather]. *)
Record cells : Type := Cells {
  city : text;
  weatherData : option conditions;
  tideData : option (list tide);
  loading : bool;
  error : string;
  isFullscreen : bool;
}.

(** What a handler does to the outside: writes to the cells, requests
    (named by the parameters put in the URL), the console. *)
Inductive event : Type :=
  | PreventDefault
  | SetLoading (b : bool)
  | SetError (msg : string)
  | SetWeatherData (w : option conditions)
  | SetTideData (t : option (list tide))
  | GetGeocode (q : text)
  | GetForecast (latitude longitude : num)
  | GetTides (la lo : num) (start length : Z)
  | ConsoleLog (label msg : string).

Definition is_request (e : event) : bool :=
  match e with
  | GetGeocode _ | GetForecast _ _ | GetTides _ _ _ _ => true
  | _ => false
  end.

Definition apply_event (s : cells) (e : event) : cells :=
  match e with
  | SetLoading b =>
      Cells (city s) (weatherData s) (tideData s) b (error s) (isFullscreen s)
  | SetError msg =>
      Cells (city s) (weatherData s) (tideData s) (loading s) msg (isFullscreen s)
  | SetWeatherData w =>
      Cells (city s) w (tideData s) (loading s) (error s) (isFullscreen s)
  | SetTideData t =>
      Cells (city s) (weatherData s) t (loading s) (error s) (isFullscreen s)
  | _ => s
  end.

Definition replay (s : cells) (es : list event) : cells :=
  foldl apply_event s es.

Record world : Type := World { state : cells; trace : list event }.

Definition js (A : Type) : Type := world → completion A * world.

Definition ret {A} (a : A) : js A := λ w, (Normal a, w).

Definition throw {A} (msg : string) : js A := λ w, (Throw msg, w).

Definition bind {A B} (c : js A) (k : A → js B) : js B :=
  λ w, match c w with
       | (Normal a, w') => k a w'
       | (Throw msg, w') => (Throw msg, w')
       end.

Notation "'let!' x ':=' c 'in' k" := (bind c (λ x, k))
  (at level 10, x name, c at level 100, k at level 200).
Notation "c '>>' k" := (bind c (λ _, k))
  (at level 100, k at level 200, right associativity).

(** [try { body } catch (err) { handler(err.message) }] *)
Definition try_catch {A} (body : js A) (handler : string → js A) : js A :=
  λ w, match body w with
       | (Normal a, w') => (Normal a, w')
       | (Throw msg, w') => handler msg w'
       end.

(** [try { body } finally { fin }] *)
Definition try_finally {A} (body : js A) (fin : js unit) : js A :=
  λ w, match body w with
       | (c, w') =>
           match fin w' with
           | (Normal _, w'') => (c, w'')
           | (Throw msg, w'') => (Throw msg, w'')
           end
       end.

Definition emit (e : event) : js unit :=
  λ w, (Normal (), World (apply_event (state w) e) (trace w ++ [e])).

Definition setLoading (b : bool) : js unit := emit (SetLoading b).
Definition setError (msg : string) : js unit := emit (SetError msg).
Definition setWeatherData (w : option conditions) : js unit := emit (SetWeatherData w).
Definition setTideData (t : option (list tide)) : js unit := emit (SetTideData t).

(** [await fetch(url)] and [await response.json()]. *)
Definition fetch {A} (request : event) (outcome : settled A) : js (response A) :=
  emit request >>
  match outcome with
  | Rejected msg => throw msg
  | Fulfilled r => ret r
  end.

Definition response_json {A} (r : response A) : js A :=
  match json r with
  | Unusable msg => throw msg
  | Parsed a => ret a
  end.

Definition encodeURIComponent (s : text) : js unit :=
  if well_formed s then ret () else throw uri_malformed.

(** The [city] cell, as the handler's closure holds it. *)
Definition read_city : js text := λ w, (Normal (city (state w)), w).

Variable net : network.

(** [getCoordinates], App.jsx l.53-75. *)
Definition getCoordinates (cityName : text) : js location :=
  encodeURIComponent cityName >>
  let! response := fetch (GetGeocode cityName) (geocoder net cityName) in
  if negb (ok response) then throw "Failed to fetch location data"
  else
    let! data := response_json response in
    match data with
    | [] => throw "City not found. Please check the spelling."
    | first :: _ =>
        ret {| loc_lat := parseFloat (lat first);
               loc_lon := parseFloat (lon first);
               loc_name := display_name first |}
    end.

(** The callback of [data.extremes.map]. *)
Definition tide_of_extreme (extreme : extreme) : tide :=
  {| t_type := if decide (type extreme = "High") then "High Tide" else "Low Tide";
     t_height := height extreme;
     t_time := new_Date (dt extreme * 1000) |}.

(** [fetchTideData], App.jsx l.123-157. [Math.floor(ms / 1000)] is the
    floor division of [Z]. *)
Definition fetchTideData (la lo : num) : js (option (list tide)) :=
  try_catch
    (let today := clock net in
     let start := today / 1000 in
     let end_ := start + 86400 * 2 in
     let! response := fetch (GetTides la lo start (86400 * 2))
                            (tide_service net la lo start (86400 * 2)) in
     if negb (ok response) then ret None
     else
       let! data := response_json response in
       match extremes data with
       | None => ret None
       | Some [] => ret None
       | Some ((_ :: _) as l) =>
           let tides := tide_of_extreme <$> l in
           ret (Some (take 6 tides))
       end)
    (λ message, emit (ConsoleLog "Tide data unavailable:" message) >> ret None).

(** [city.trim() || "Marseille"] *)
Definition search_city (city : text) : text :=
  match trim city with
  | [] => of_ascii "Marseille"
  | (_ :: _) as t => t
  end.

(** [fetchWeather], App.jsx l.159-211: the submit handler. [is_day] is 0 or
    1 and [getWeatherIcon] tests its truthiness. *)
Definition fetchWeather : js unit :=
  emit PreventDefault >>
  setLoading true >>
  setError "" >>
  setWeatherData None >>
  setTideData None >>
  try_finally
    (try_catch
       (let! city := read_city in
        let searchCity := search_city city in
        let! location := getCoordinates searchCity in
        let! weatherResponse :=
          fetch (GetForecast (loc_lat location) (loc_lon location))
                (forecaster net (loc_lat location) (loc_lon location)) in
        if negb (ok weatherResponse) then throw "Failed to fetch weather data"
        else
          let! weatherData := response_json weatherResponse in
          setWeatherData (Some
            {| c_location := loc_name location;
               c_lat := loc_lat location;
               c_lon := loc_lon location;
               temperature := temperature_2m (current weatherData);
               feelsLike := apparent_temperature (current weatherData);
               humidity := relative_humidity_2m (current weatherData);
               windSpeed := wind_speed_10m (current weatherData);
               pressure := pressure_msl (current weatherData);
               weatherCode := weather_code (current weatherData);
               isDay := is_day (current weatherData);
               description :=
                 WeatherInterpreter.getWeatherDescription
                   (weather_code (current weatherData));
               icon :=
                 WeatherInterpreter.getWeatherIcon
                   (weather_code (current weatherData))
                   (negb (is_day (current weatherData) =? 0)) |}) >>
          let! tides := fetchTideData (loc_lat location) (loc_lon location) in
          setTideData tides)
       (λ message, setError message))
    (setLoading false).

(** One submission, started from the cells [s]. *)
Definition submit (s : cells) : world := snd (fetchWeather (World s [])).

End Component.

(** ** Reading a submission *)

Section Outcomes.
Context `{rt : JsRuntime}.

(** [setCity], the [onChange] handler of the input box. *)
Definition setCity (s : cells) (value : text) : cells :=
  Cells value (weatherData s) (tideData s) (loading s) (error s) (isFullscreen s).

(** The four writes every submission starts with, after [preventDefault]. *)
Definition prologue : list event :=
  [PreventDefault; SetLoading true; SetError ""; SetWeatherData None;
   SetTideData None].

Definition is_forecast_request (e : event) : bool :=
  match e with GetForecast _ _ => true | _ => false end.

Definition is_tide_request (e : event) : bool :=
  match e with GetTides _ _ _ _ => true | _ => false end.

Definition is_partial_result (e : event) : bool :=
  match e with SetWeatherData (Some _) => true | _ => false end.

(** The request states of the design document, as the page renders the
    cells: the spinner, the results panel, the error line. [Failure_state]
    is the state the [catch] clause leaves: its message in the error cell and
    no result. *)
Definition Loading_state (s : cells) : Prop :=
  loading s = true ∧ error s = "" ∧ weatherData s = None ∧ tideData s = None.

Definition Success_state (s : cells) (c : conditions) (tides : option (list tide)) : Prop :=
  loading s = false ∧ error s = "" ∧ weatherData s = Some c ∧ tideData s = tides.

Definition Failure_state (s : cells) (message : string) : Prop :=
  loading s = false ∧ error s = message ∧ weatherData s = None ∧ tideData s = None.

(** The ways the tide fetch fails: transport error, non-2xx answer, a body
    that cannot be used, a body without an extremes list. *)
Definition tide_fetch_failed (r : settled tide_reply) : bool :=
  match r with
  | Rejected _ => true
  | Fulfilled (Response false _) => true
  | Fulfilled (Response true (Unusable _)) => true
  | Fulfilled (Response true (Parsed (TideReply None))) => true
  | Fulfilled (Response true (Parsed (TideReply (Some _)))) => false
  end.

(** The events a tide answer carries. *)
Definition tide_events (r : settled tide_reply) : list extreme :=
  match r with
  | Fulfilled (Response true (Parsed (TideReply (Some l)))) => l
  | _ => []
  end.

(** The ways the forecast fetch fails that the design document names, with
    the message each one raises: the rejection's own for a transport
    failure, the page's for a non-2xx answer. *)
Definition weather_failure (r : settled forecast) : option string :=
  match r with
  | Rejected msg => Some msg
  | Fulfilled (Response false _) => Some "Failed to fetch weather data"
  | Fulfilled (Response true _) => None
  end.

End Outcomes.

(** ** A concrete runtime and network

    Numbers are written as their decimal numerals. The geocoder knows Paris
    and Marseille, the forecast is up for Paris only, and the tide service
    times out. *)

Definition demo_runtime : JsRuntime :=
  {| num := string; parseFloat := λ s, s; uri_malformed := "URI malformed" |}.

Definition demo_forecast : @forecast demo_runtime :=
  Forecast (@Current demo_runtime "21.3" "40" "20.1" "0" 1 "12" "1013.2" 1).

Definition demo_network : @network demo_runtime :=
  @Network demo_runtime
    (λ q, if decide (q = of_ascii "Paris") then
            Fulfilled (Response true (Parsed [Place "48.8566" "2.3522" "Paris, France"]))
          else if decide (q = of_ascii "Marseille") then
            Fulfilled (Response true (Parsed [Place "43.2962" "5.3700" "Marseille, France"]))
          else Fulfilled (Response true (Parsed [])))
    (λ la lo, if decide (la = "48.8566") then
                Fulfilled (Response true (Parsed demo_forecast))
              else Fulfilled (Response false (Unusable "")))
    (λ la lo start length, Rejected "The operation timed out.")
    1700000000123.

Definition demo_cells (typed : string) : @cells demo_runtime :=
  @Cells demo_runtime (of_ascii typed) None None false "" false.

(** A tide service that answers, with eight extremes. *)
Definition demo_extremes : list (@extreme demo_runtime) :=
  [ @Extreme demo_runtime "High" "1.21" 1700003600;
    @Extreme demo_runtime "Low" "0.18" 1700025200;
    @Extreme demo_runtime "High" "1.19" 1700048400;
    @Extreme demo_runtime "Low" "0.22" 1700070000;
    @Extreme demo_runtime "High" "1.25" 1700093000;
    @Extreme demo_runtime "Low" "0.15" 1700115000;
    @Extreme demo_runtime "High" "1.22" 1700138000;
    @Extreme demo_runtime "Low" "0.20" 1700160000 ].

Definition demo_tidal_network : @network demo_runtime :=
  @Network demo_runtime
    (geocoder demo_network)
    (forecaster demo_network)
    (λ la lo start length,
       Fulfilled (Response true (Parsed (TideReply (Some demo_extremes)))))
    (clock demo_network).

(** ** What the page shows *)

Section View.
Context `{rt : JsRuntime}.

(** [setIsFullscreen]: [true] behind the fullscreen button of the results
    panel, [false] behind the backdrop and the close button of the modal. *)
Definition setIsFullscreen (s : cells) (value : bool) : cells :=
  Cells (city s) (weatherData s) (tideData s) (loading s) (error s) value.

(** One [tide-item] of the tide list, App.jsx l.298-321. Time, date and
    height are formatted by the engine and are carried as they are. *)
Record tide_item : Type := TideItem {
  item_class : string;
  item_arrow : string;
  item_label : string;
  item_tide : tide;
}.

Definition render_tide (tide : tide) : tide_item :=
  {| item_class :=
       "tide-item " +:+
       (if decide (t_type tide = "High Tide") then "high-tide" else "low-tide");
     item_arrow := if decide (t_type tide = "High Tide") then "‚¨ÜÔ∏è" else "‚¨áÔ∏è";
     item_label := t_type tide;
     item_tide := tide |}.

(** The parts of the tree returned by [Weather] that depend on the cells,
    App.jsx l.213-359: [x && <...>] shows the element when [x] is truthy. *)
Record page : Type := Page {
  input_value : text;
  button_disabled : bool;
  button_label : string;
  error_line : option string;
  result_panel : option conditions;
  tide_section : option (list tide_item);
  fullscreen_modal : option conditions;
}.

Definition render (s : cells) : page :=
  {| input_value := city s;
     button_disabled := loading s;
     button_label := if loading s then "Loading..." else "Get Weather";
     error_line := if decide (error s = "") then None else Some (error s);
     result_panel := weatherData s;
     tide_section :=
       match weatherData s, tideData s with
       | Some _, Some ((_ :: _) as l) => Some (render_tide <$> l)
       | _, _ => None
       end;
     fullscreen_modal := if isFullscreen s then weatherData s else None |}.

End View.

(** ** The page without tides and map

    The third document of [src/src/App.jsx] is a [Weather] component with
    the same [getCoordinates], [getWeatherDescription] and [getWeatherIcon],
    four cells, and a [fetchWeather] that stops after the forecast. *)

Module Basic.
Section Basic.
Context `{rt : JsRuntime}.

(** The object stored by [setWeatherData], App.jsx l.466-480. *)
Record conditions : Type := Conditions {
  c_location : string;
  temperature : num;
  feelsLike : num;
  humidity : num;
  windSpeed : num;
  pressure : num;
  weatherCode : Z;
  isDay : Z;
  description : string;
  icon : string;
}.

Record cells : Type := Cells {
  city : text;
  weatherData : option conditions;
  loading : bool;
  error : string;
}.

Inductive event : Type :=
  | PreventDefault
  | SetLoading (b : bool)
  | SetError (msg : string)
  | SetWeatherData (w : option conditions)
  | GetGeocode (q : text)
  | GetForecast (latitude longitude : num).

Definition apply_event (s : cells) (e : event) : cells :=
  match e with
  | SetLoading b => Cells (city s) (weatherData s) b (error s)
  | SetError msg => Cells (city s) (weatherData s) (loading s) msg
  | SetWeatherData w => Cells (city s) w (loading s) (error s)
  | _ => s
  end.

Record world : Type := World { state : cells; trace : list event }.

Definition js (A : Type) : Type := world → completion A * world.

Definition ret {A} (a : A) : js A := λ w, (Normal a, w).

Definition throw {A} (msg : string) : js A := λ w, (Throw msg, w).

Definition bind {A B} (c : js A) (k : A → js B) : js B :=
  λ w, match c w with
       | (Normal a, w') => k a w'
       | (Throw msg, w') => (Throw msg, w')
       end.

Notation "'let!' x ':=' c 'in' k" := (bind c (λ x, k))
  (at level 10, x name, c at level 100, k at level 200).
Notation "c '>>' k" := (bind c (λ _, k))
  (at level 100, k at level 200, right associativity).

Definition try_catch {A} (body : js A) (handler : string → js A) : js A :=
  λ w, match body w with
       | (Normal a, w') => (Normal a, w')
       | (Throw msg, w') => handler msg w'
       end.

Definition try_finally {A} (body : js A) (fin : js unit) : js A :=
  λ w, match body w with
       | (c, w') =>
           match fin w' with
           | (Normal _, w'') => (c, w'')
           | (Throw msg, w'') => (Throw msg, w'')
           end
       end.

Definition emit (e : event) : js unit :=
  λ w, (Normal (), World (apply_event (state w) e) (trace w ++ [e])).

Definition setLoading (b : bool) : js unit := emit (SetLoading b).
Definition setError (msg : string) : js unit := emit (SetError msg).
Definition setWeatherData (w : option conditions) : js unit := emit (SetWeatherData w).

Definition fetch {A} (request : event) (outcome : settled A) : js (response A) :=
  emit request >>
  match outcome with
  | Rejected msg => throw msg
  | Fulfilled r => ret r
  end.

Definition response_json {A} (r : response A) : js A :=
  match json r with
  | Unusable msg => throw msg
  | Parsed a => ret a
  end.

Definition encodeURIComponent (s : text) : js unit :=
  if well_formed s then ret () else throw uri_malformed.

Definition read_city : js text := λ w, (Normal (city (state w)), w).

Variable net : network.

(** [getCoordinates], App.jsx l.373-395. *)
Definition getCoordinates (cityName : text) : js location :=
  encodeURIComponent cityName >>
  let! response := fetch (GetGeocode cityName) (geocoder net cityName) in
  if negb (ok response) then throw "Failed to fetch location data"
  else
    let! data := response_json response in
    match data with
    | [] => throw "City not found. Please check the spelling."
    | first :: _ =>
        ret {| loc_lat := parseFloat (lat first);
               loc_lon := parseFloat (lon first);
               loc_name := display_name first |}
    end.

(** [fetchWeather], App.jsx l.442-487. *)
Definition fetchWeather : js unit :=
  emit PreventDefault >>
  setLoading true >>
  setError "" >>
  setWeatherData None >>
  try_finally
    (try_catch
       (let! city := read_city in
        let searchCity := search_city city in
        let! location := getCoordinates searchCity in
        let! weatherResponse :=
          fetch (GetForecast (loc_lat location) (loc_lon location))
                (forecaster net (loc_lat location) (loc_lon location)) in
        if negb (ok weatherResponse) then throw "Failed to fetch weather data"
        else
          let! weatherData := response_json weatherResponse in
          setWeatherData (Some
            {| c_location := loc_name location;
               temperature := temperature_2m (current weatherData);
               feelsLike := apparent_temperature (current weatherData);
               humidity := relative_humidity_2m (current weatherData);
               windSpeed := wind_speed_10m (current weatherData);
               pressure := pressure_msl (current weatherData);
               weatherCode := weather_code (current weatherData);
               isDay := is_day (current weatherData);
               description :=
                 WeatherInterpreter.getWeatherDescription
                   (weather_code (current weatherData));
               icon :=
                 WeatherInterpreter.getWeatherIcon
                   (weather_code (current weatherData))
                   (negb (is_day (current weatherData) =? 0)) |}))
       (λ message, setError message))
    (setLoading false).

Definition submit (s : cells) : world := snd (fetchWeather (World s [])).

End Basic.
End Basic.

(** What the page without tides can see of the full page: the four cells
    it has, the weather object without its coordinates, and the events that
    are not about tides. *)
Section Forget.
Context `{rt : JsRuntime}.

Definition basic_conditions (c : conditions) : Basic.conditions :=
  {| Basic.c_location := c_location c;
     Basic.temperature := temperature c;
     Basic.feelsLike := feelsLike c;
     Basic.humidity := humidity c;
     Basic.windSpeed := windSpeed c;
     Basic.pressure := pressure c;
     Basic.weatherCode := weatherCode c;
     Basic.isDay := isDay c;
     Basic.description := description c;
     Basic.icon := icon c |}.

Definition basic_cells (s : cells) : Basic.cells :=
  Basic.Cells (city s) (option_map basic_conditions (weatherData s))
    (loading s) (error s).

Definition basic_event (e : event) : option Basic.event :=
  match e with
  | PreventDefault => Some Basic.PreventDefault
  | SetLoading b => Some (Basic.SetLoading b)
  | SetError msg => Some (Basic.SetError msg)
  | SetWeatherData w => Some (Basic.SetWeatherData (option_map basic_conditions w))
  | GetGeocode q => Some (Basic.GetGeocode q)
  | GetForecast la lo => Some (Basic.GetForecast la lo)
  | SetTideData _ | GetTides _ _ _ _ | ConsoleLog _ _ => None
  end.

End Forget.

(** ** More readings and networks *)

(** A code unit outside the surrogate range D800-DFFF. *)
Definition no_surrogate (u : N) : bool :=
  negb (is_high_surrogate u || is_low_surrogate u).

Section MoreOutcomes.
Context `{rt : JsRuntime}.

(** The ways [getCoordinates] fails once the request has left, with the
    message each one raises. *)
Definition geocode_failure (r : settled (list place)) : option string :=
  match r with
  | Rejected msg => Some msg
  | Fulfilled (Response false _) => Some "Failed to fetch location data"
  | Fulfilled (Response true (Unusable msg)) => Some msg
  | Fulfilled (Response true (Parsed [])) =>
      Some "City not found. Please check the spelling."
  | Fulfilled (Response true (Parsed (_ :: _))) => None
  end.

(** The requests of a trace, in the order they were made. *)
Definition requests (es : list event) : list event := List.filter is_request es.

(** The cells a first submission starts from, with [typed] in the box. *)
Definition fresh (typed : text) (fullscreen : bool) : cells :=
  Cells typed None None false "" fullscreen.

End MoreOutcomes.

(** The geocoder is down (503); the forecast body for Marseille is not
    JSON. *)
Definition demo_down_network : @network demo_runtime :=
  @Network demo_runtime
    (λ q, Fulfilled (Response false (Unusable "")))
    (forecaster demo_network)
    (tide_service demo_network)
    (clock demo_network).

Definition demo_garbled_network : @network demo_runtime :=
  @Network demo_runtime
    (geocoder demo_network)
    (λ la lo, Fulfilled (Response true (Unusable "Unexpected token < in JSON")))
    (tide_service demo_network)
    (clock demo_network).

(** * Properties of the interpreter *)

Module WeatherInterpreterFacts.
Import WeatherInterpreter.

(** Splits a goal along every integer comparison the cascade makes and
    drops the branches whose bounds contradict each other. *)
Ltac split_thresholds :=
  repeat match goal with
    | |- context [?a >=? ?b] => rewrite (Z.geb_leb a b)
    | |- context [?a =? ?b] => destruct (Z.eqb_spec a b); try lia
    | |- context [?a <=? ?b] => destruct (Z.leb_spec a b); try lia
    end.

Lemma descriptions_keys :
  descriptions = list_to_map ((λ c, (property_key c, getWeatherDescription c)) <$> known_codes).
Proof. reflexivity. Qed.

Lemma property_key_known (code : Z) :
  property_key code ∈ property_key <$> known_codes → code ∈ known_codes.
Proof.
  intros Hin. apply list_elem_of_fmap in Hin as (c & Heq & Hc).
  apply (inj pretty) in Heq. by subst.
Qed.

Lemma descriptions_lookup_unknown (code : Z) :
  code ∉ known_codes → descriptions !! property_key code = None.
Proof.
  intros Hout. rewrite descriptions_keys.
  apply not_elem_of_list_to_map_1.
  rewrite <- list_fmap_compose. intros Hin. apply Hout, property_key_known.
  exact Hin.
Qed.

Lemma icons_distinct :
  NoDup [clear_day; moon; partly_cloudy_day; fog; drizzle; rain; snow;
         thunderstorm; thermometer].
Proof. apply (bool_decide_unpack _). vm_compute. exact I. Qed.

(** C4. On the non-negative codes the cascade of [getWeatherIcon] is the
    table of ranges: 0 clear (day or night variant), 1-3 partly cloudy (day or
    night variant), 4-48 fog, 49-55 drizzle, 56-65 rain, 66-77 snow, 78-82
    rain shower, 83-86 snow shower, 87-94 the thermometer, 95 and above
    thunderstorm. The day and night icons of code 0 differ, code 3 by day is
    the partly-cloudy symbol and not the clear-sky one, and code 96 is the
    thunderstorm symbol whatever the day flag. *)
Theorem getWeatherIcon_cascade :
  (∀ (code : Z) (isDay : bool),
     0 ≤ code → icon_by_range code isDay = Some (getWeatherIcon code isDay))
  ∧ getWeatherIcon 0 true ≠ getWeatherIcon 0 false
  ∧ getWeatherIcon 3 true = partly_cloudy_day
  ∧ getWeatherIcon 3 true ≠ clear_day
  ∧ (∀ isDay : bool, getWeatherIcon 96 isDay = thunderstorm).
Proof.
  split; [| repeat split; try discriminate; by intros []].
  intros code isDay Hcode.
  unfold icon_by_range, getWeatherIcon, in_range.
  split_thresholds; simpl; first [reflexivity | lia].
Qed.

Lemma getWeatherIcon_cascade_witness :
  0 ≤ 50 ∧ icon_by_range 50 true = Some (getWeatherIcon 50 true).
Proof.
  split; [lia | apply (proj1 getWeatherIcon_cascade 50 true); lia].
Defined.

(** C5. [getWeatherDescription] is a total exact-match lookup: on the 24
    codes of the table it returns the description written next to the code,
    and on every other integer it returns "Unknown". *)
Theorem getWeatherDescription_table :
  length known_codes = 24%nat
  ∧ getWeatherDescription <$> known_codes =
      [ "Clear sky"; "Mainly clear"; "Partly cloudy"; "Overcast"; "Foggy";
        "Depositing rime fog"; "Light drizzle"; "Moderate drizzle";
        "Dense drizzle"; "Slight rain"; "Moderate rain"; "Heavy rain";
        "Slight snow"; "Moderate snow"; "Heavy snow"; "Snow grains";
        "Slight rain showers"; "Moderate rain showers";
        "Violent rain showers"; "Slight snow showers"; "Heavy snow showers";
        "Thunderstorm"; "Thunderstorm with slight hail";
        "Thunderstorm with heavy hail" ]
  ∧ (∀ code : Z, code ∉ known_codes → getWeatherDescription code = "Unknown").
Proof.
  split; [reflexivity |]. split; [reflexivity |].
  intros code Hout. unfold getWeatherDescription.
  by rewrite descriptions_lookup_unknown.
Qed.

Lemma getWeatherDescription_table_witness :
  (4 ∉ known_codes) ∧ getWeatherDescription 4 = "Unknown".
Proof.
  assert (Hout : 4 ∉ known_codes) by (apply (bool_decide_unpack _); exact I).
  split; [exact Hout |].
  exact (proj2 (proj2 getWeatherDescription_table) 4 Hout).
Defined.

(** C9. At night the codes 0, 1, 2 and 3 all show the moon: the clear and
    the partly-cloudy pair share their night symbol. *)
Theorem getWeatherIcon_night_coincide :
  getWeatherIcon 0 false = moon
  ∧ getWeatherIcon 1 false = moon
  ∧ getWeatherIcon 2 false = moon
  ∧ getWeatherIcon 3 false = moon.
Proof. repeat split. Qed.

(** C10. A negative code takes the [code <= 3] clause: it shows the
    partly-cloudy symbol by day and the moon by night. The thermometer is
    returned for the codes 87 to 94 and for no other integer. *)
Theorem getWeatherIcon_negative_and_fallback :
  (∀ (code : Z) (isDay : bool),
     code < 0 →
     getWeatherIcon code isDay = if isDay then partly_cloudy_day else moon)
  ∧ (∀ (code : Z) (isDay : bool),
       getWeatherIcon code isDay = thermometer ↔ 87 ≤ code ≤ 94).
Proof.
  split; intros code isDay.
  - intros Hneg. unfold getWeatherIcon. split_thresholds; first [reflexivity | lia].
  - unfold getWeatherIcon.
    split_thresholds; destruct isDay;
      (split; [intros Heq; first [discriminate Heq | lia] | intros Hr; first [reflexivity | lia]]).
Qed.

Lemma getWeatherIcon_negative_and_fallback_witness :
  -1 < 0 ∧ getWeatherIcon (-1) true = partly_cloudy_day.
Proof.
  split; [lia | apply (proj1 getWeatherIcon_negative_and_fallback (-1) true); lia].
Defined.

End WeatherInterpreterFacts.

(** * Properties of the pipeline *)

(** Unfolds the handlers and the effect combinators, and nothing of the
    interpreter or of the string functions. *)
Ltac run :=
  cbv beta iota zeta delta
    [submit fetchWeather getCoordinates fetchTideData fetch response_json
     encodeURIComponent emit setLoading setError setWeatherData setTideData
     read_city
     try_catch try_finally bind ret throw apply_event
     state trace ok json extremes loc_lat loc_lon loc_name
     city weatherData tideData loading error isFullscreen
     fst snd negb app].

(** Case analysis on what the network answers, one request at a time. *)
Ltac answer :=
  match goal with
  | |- context [well_formed ?q] => destruct (well_formed q) eqn:?
  | |- context [geocoder ?n ?q] =>
      destruct (geocoder n q) as [? | [[] [? | [| ? ?]]]] eqn:?
  | |- context [forecaster ?n ?a ?b] =>
      destruct (forecaster n a b) as [? | [[] [? | ?]]] eqn:?
  | |- context [tide_service ?n ?a ?b ?c ?d] =>
      destruct (tide_service n a b c d) as [? | [[] [? | [[[| ? ?] |]]]]] eqn:?
  end.

Ltac run_all := run; repeat (answer; run).

Section TrimFacts.

Lemma trim_start_blank (s : text) :
  trim_start s = [] ↔ forallb is_white_space s = true.
Proof.
  induction s as [| u s IH]; simpl; [done |].
  destruct (is_white_space u); simpl; [exact IH | split; discriminate].
Qed.

Lemma forallb_reverse (s : text) :
  forallb is_white_space (reverse s) = forallb is_white_space s.
Proof.
  induction s as [| u s IH]; [done |].
  rewrite reverse_cons, forallb_app, IH. simpl.
  rewrite andb_true_r. apply andb_comm.
Qed.

Lemma trim_start_head (s : text) :
  match trim_start s with
  | [] => True
  | u :: _ => is_white_space u = false
  end.
Proof.
  induction s as [| u s IH]; simpl; [done |].
  destruct (is_white_space u) eqn:Hu; [exact IH | exact Hu].
Qed.

(** [trim] leaves nothing exactly when every code unit is white space. *)
Lemma trim_blank (s : text) :
  trim s = [] ↔ forallb is_white_space s = true.
Proof.
  unfold trim, trim_end. rewrite <- trim_start_blank. split.
  - intros H. apply (f_equal reverse) in H. rewrite reverse_involutive in H.
    simpl in H. apply trim_start_blank in H. rewrite forallb_reverse in H.
    pose proof (trim_start_head s) as Hhead.
    destruct (trim_start s) as [| u t]; [done |].
    simpl in H. rewrite Hhead in H. discriminate.
  - intros ->. reflexivity.
Qed.

Lemma search_city_blank (s : text) :
  forallb is_white_space s = true → search_city s = of_ascii "Marseille".
Proof. intros H. unfold search_city. apply trim_blank in H. by rewrite H. Qed.

Lemma search_city_Marseille :
  search_city (of_ascii "Marseille") = of_ascii "Marseille".
Proof. reflexivity. Qed.

End TrimFacts.

Section PipelineFacts.
Context `{rt : JsRuntime} (net : network).

(** The cells after a submission are the writes of its trace, replayed. *)
Lemma submit_replay (s : cells) :
  state (submit net s) = replay s (trace (submit net s)).
Proof. destruct s. run_all; reflexivity. Qed.

(** C2. When the geocoding lookup is issued and answers 2xx with no match,
    the submission ends in failure with the message "City not found. Please
    check the spelling.", and its trace holds the geocoding request and no
    forecast or tide request. *)
Theorem fetchWeather_city_not_found (s : cells) :
  well_formed (search_city (city s)) = true →
  geocoder net (search_city (city s)) = Fulfilled (Response true (Parsed [])) →
  Failure_state (state (submit net s)) "City not found. Please check the spelling."
  ∧ trace (submit net s) =
      prologue ++ [GetGeocode (search_city (city s));
                   SetError "City not found. Please check the spelling.";
                   SetLoading false]
  ∧ existsb is_forecast_request (trace (submit net s)) = false
  ∧ existsb is_tide_request (trace (submit net s)) = false.
Proof.
  destruct s as [typed w0 t0 l0 e0 f0]. simpl. intros Hwf Hgeo.
  unfold Failure_state. run. rewrite Hwf. run. rewrite Hgeo. run. done.
Qed.

(** C3. When geocoding succeeds and the forecast fetch fails (the transport
    rejects, or the answer is not 2xx), the submission ends in failure with
    that fetch's message; its trace holds no tide request and no write of a
    result, and [weatherData] is null at the end although the point was
    resolved. *)
Theorem fetchWeather_weather_failure
    (s : cells) (first : place) (others : list place) (message : string) :
  well_formed (search_city (city s)) = true →
  geocoder net (search_city (city s)) =
    Fulfilled (Response true (Parsed (first :: others))) →
  weather_failure
    (forecaster net (parseFloat (lat first)) (parseFloat (lon first))) =
    Some message →
  Failure_state (state (submit net s)) message
  ∧ trace (submit net s) =
      prologue ++ [GetGeocode (search_city (city s));
                   GetForecast (parseFloat (lat first)) (parseFloat (lon first));
                   SetError message;
                   SetLoading false]
  ∧ existsb is_tide_request (trace (submit net s)) = false
  ∧ existsb is_partial_result (trace (submit net s)) = false.
Proof.
  destruct s as [typed w0 t0 l0 e0 f0]. simpl. intros Hwf Hgeo Hfail.
  unfold Failure_state. run. rewrite Hwf. run. rewrite Hgeo. run.
  destruct (forecaster net _ _) as [msg | [[] b]]; simpl in Hfail;
    [injection Hfail as <- | discriminate Hfail | injection Hfail as <-];
    run; done.
Qed.

(** C1. When geocoding and the forecast fetch succeed, the submission ends
    in success whatever the tide service does: the result is written, no
    failure state is reached, and the tide cell is null exactly when the tide
    fetch failed (transport error, non-2xx, unusable body, no extremes list)
    or brought no event. *)
Theorem fetchWeather_tide_optional
    (s : cells) (first : place) (others : list place) (fc : forecast) :
  well_formed (search_city (city s)) = true →
  geocoder net (search_city (city s)) =
    Fulfilled (Response true (Parsed (first :: others))) →
  forecaster net (parseFloat (lat first)) (parseFloat (lon first)) =
    Fulfilled (Response true (Parsed fc)) →
  ∃ (c : conditions) (tides : option (list tide)),
    Success_state (state (submit net s)) c tides
    ∧ c_location c = display_name first
    ∧ weatherCode c = weather_code (current fc)
    ∧ (tides = None ↔
         tide_fetch_failed
           (tide_service net (parseFloat (lat first)) (parseFloat (lon first))
              (clock net / 1000) 172800) = true
         ∨ tide_events
             (tide_service net (parseFloat (lat first)) (parseFloat (lon first))
                (clock net / 1000) 172800) = [])
    ∧ (∀ message : string, ¬ Failure_state (state (submit net s)) message)
    ∧ existsb is_tide_request (trace (submit net s)) = true.
Proof.
  destruct s as [typed w0 t0 l0 e0 f0]. simpl. intros Hwf Hgeo Hfc.
  unfold Success_state, Failure_state.
  run. rewrite Hwf. run. rewrite Hgeo. run. rewrite Hfc. run.
  change (86400 * 2) with 172800.
  destruct (tide_service net _ _ _ _) as [msg | [[] [msg | [[[| e l] |]]]]];
    run; (eexists _, _; split; [done |]);
    (repeat split; try done; try (intros _; by left); try (intros _; by right);
     try (intros [? | ?]; done); try (intros ? (_ & _ & ? & _); done)).
Qed.

(** C6. A city cell that is empty or holds only white space is searched as
    "Marseille": the submission issues the geocoding request for "Marseille"
    and has the trace and the final cells of a submission of the literal
    "Marseille" (the city cell itself keeps what was typed). *)
Theorem fetchWeather_blank_city (s : cells) :
  forallb is_white_space (city s) = true →
  search_city (city s) = of_ascii "Marseille"
  ∧ search_city (of_ascii "Marseille") = of_ascii "Marseille"
  ∧ trace (submit net s) = trace (submit net (setCity s (of_ascii "Marseille")))
  ∧ state (submit net s) =
      setCity (state (submit net (setCity s (of_ascii "Marseille")))) (city s)
  ∧ GetGeocode (of_ascii "Marseille") ∈ trace (submit net s).
Proof.
  destruct s as [typed w0 t0 l0 e0 f0]. simpl. intros Hblank.
  split; [by apply search_city_blank |]. split; [reflexivity |].
  unfold setCity. run.
  rewrite (search_city_blank typed Hblank), search_city_Marseille.
  change (well_formed (of_ascii "Marseille")) with true.
  run_all; (split; [reflexivity |]); (split; [reflexivity |]);
    apply list_elem_of_In; simpl; tauto.
Qed.

(** C7. On an answer that carries events, [fetchTideData] has asked for the
    172800 seconds (48 hours) that start at the call time in whole unix
    seconds, and returns the events in the order received, cut to the first
    six, the label "High" read as high tide and any other label as low
    tide. *)
Theorem fetchTideData_window_and_events
    (la lo : num) (l : list extreme) (w : world) :
  l ≠ [] →
  tide_service net la lo (clock net / 1000) 172800 =
    Fulfilled (Response true (Parsed (TideReply (Some l)))) →
  fetchTideData net la lo w =
    (Normal (Some (take 6 (tide_of_extreme <$> l))),
     World (state w) (trace w ++ [GetTides la lo (clock net / 1000) 172800]))
  ∧ 172800 = 48 * 3600
  ∧ 1000 * (clock net / 1000) ≤ clock net < 1000 * (clock net / 1000) + 1000
  ∧ (length (take 6 (tide_of_extreme <$> l)) ≤ 6)%nat
  ∧ (∀ i : nat, (i < 6)%nat →
       take 6 (tide_of_extreme <$> l) !! i = tide_of_extreme <$> (l !! i))
  ∧ (∀ e : extreme, t_type (tide_of_extreme e) = "High Tide" ↔ type e = "High")
  ∧ (∀ e : extreme, t_type (tide_of_extreme e) = "Low Tide" ↔ type e ≠ "High").
Proof.
  intros Hne Hanswer. split.
  - unfold fetchTideData, try_catch, bind, fetch, emit, response_json, ret.
    change (86400 * 2) with 172800. rewrite Hanswer. simpl.
    destruct l as [| e l']; [done |]. by destruct w.
  - split; [reflexivity |]. split; [pose proof (Z.div_mod (clock net) 1000);
      pose proof (Z.mod_pos_bound (clock net) 1000); lia |].
    split; [apply firstn_le_length |].
    split; [intros i Hi; by rewrite lookup_take_lt, list_lookup_fmap |].
    split; intros e; unfold tide_of_extreme; simpl; case_decide; split; done.
Qed.

(** C8. Every submission first enters loading and clears the previous
    result, tide data and error, before any request; its last write leaves
    loading; and it ends in success or in failure, never in both. *)
Theorem fetchWeather_leaves_loading (s : cells) :
  ∃ rest : list event,
    trace (submit net s) = prologue ++ rest
    ∧ existsb is_request prologue = false
    ∧ Loading_state (replay s prologue)
    ∧ state (submit net s) = replay (replay s prologue) rest
    ∧ last rest = Some (SetLoading false)
    ∧ loading (state (submit net s)) = false
    ∧ ((∃ c tides, Success_state (state (submit net s)) c tides)
       ∨ (∃ message, Failure_state (state (submit net s)) message))
    ∧ ¬ ((∃ c tides, Success_state (state (submit net s)) c tides)
         ∧ (∃ message, Failure_state (state (submit net s)) message)).
Proof.
  exists (drop 5 (trace (submit net s))).
  destruct s as [typed w0 t0 l0 e0 f0].
  unfold Loading_state, Success_state, Failure_state.
  run_all;
    (do 6 (split; [done |])); split;
    try (right; eexists; done); try (left; eexists _, _; done);
    intros [(c & tides & _ & _ & Hc & _) (message & _ & _ & Hn & _)];
    congruence.
Qed.

End PipelineFacts.

(** * The scenarios of the design document, run on the concrete network *)

Section Scenarios.

(** Scenario A: Paris by day, code 1. *)
Example scenario_A :
  state (submit demo_network (demo_cells "Paris")) =
    Cells (of_ascii "Paris")
      (Some (@Conditions demo_runtime "Paris, France" "48.8566" "2.3522"
               "21.3" "20.1" "40" "12" "1013.2" 1 1 "Mainly clear"
               WeatherInterpreter.partly_cloudy_day))
      None false "" false.
Proof. reflexivity. Qed.

(** The same submission when the tide service answers: six of the eight
    events are kept, in the order received. *)
Example scenario_A_tides :
  option_map (map (@t_type demo_runtime))
    (tideData (state (submit demo_tidal_network (demo_cells "Paris")))) =
    Some ["High Tide"; "Low Tide"; "High Tide"; "Low Tide"; "High Tide"; "Low Tide"].
Proof. reflexivity. Qed.

(** A lone surrogate in the input: [encodeURIComponent] throws and no
    request leaves. *)
Example lone_surrogate :
  submit demo_network (@Cells demo_runtime [0xD83C%N] None None false "" false) =
    World (@Cells demo_runtime [0xD83C%N] None None false "URI malformed" false)
      (prologue ++ [SetError "URI malformed"; SetLoading false]).
Proof. reflexivity. Qed.

(** Scenario B: an unknown place. *)
Lemma fetchWeather_city_not_found_witness :
  well_formed (search_city (city (demo_cells "Zzzzznotaplace"))) = true
  ∧ geocoder demo_network (search_city (city (demo_cells "Zzzzznotaplace"))) =
      Fulfilled (Response true (Parsed []))
  ∧ Failure_state (state (submit demo_network (demo_cells "Zzzzznotaplace")))
      "City not found. Please check the spelling.".
Proof.
  assert (Hwf : well_formed (search_city (city (demo_cells "Zzzzznotaplace"))) = true)
    by reflexivity.
  assert (Hgeo : geocoder demo_network (search_city (city (demo_cells "Zzzzznotaplace"))) =
                 Fulfilled (Response true (Parsed []))) by reflexivity.
  split; [exact Hwf |]. split; [exact Hgeo |].
  exact (proj1 (fetchWeather_city_not_found demo_network _ Hwf Hgeo)).
Defined.

(** Scenario D: the forecast service answers with an error status. *)
Lemma fetchWeather_weather_failure_witness :
  well_formed (search_city (city (demo_cells "Marseille"))) = true
  ∧ geocoder demo_network (search_city (city (demo_cells "Marseille"))) =
      Fulfilled (Response true (Parsed [Place "43.2962" "5.3700" "Marseille, France"]))
  ∧ weather_failure (forecaster demo_network "43.2962" "5.3700") =
      Some "Failed to fetch weather data"
  ∧ Failure_state (state (submit demo_network (demo_cells "Marseille")))
      "Failed to fetch weather data"
  ∧ existsb is_tide_request (trace (submit demo_network (demo_cells "Marseille"))) = false.
Proof.
  assert (Hwf : well_formed (search_city (city (demo_cells "Marseille"))) = true)
    by reflexivity.
  assert (Hgeo : geocoder demo_network (search_city (city (demo_cells "Marseille"))) =
                 Fulfilled (Response true
                   (Parsed [Place "43.2962" "5.3700" "Marseille, France"])))
    by reflexivity.
  assert (Hfail : weather_failure (forecaster demo_network "43.2962" "5.3700") =
                  Some "Failed to fetch weather data") by reflexivity.
  split; [exact Hwf |]. split; [exact Hgeo |]. split; [exact Hfail |].
  pose proof (fetchWeather_weather_failure demo_network _ _ _ _ Hwf Hgeo Hfail)
    as (Hstate & _ & Htide & _).
  split; [exact Hstate | exact Htide].
Defined.

(** Scenarios A and E: Paris, with the tide service timing out. *)
Lemma fetchWeather_tide_optional_witness :
  well_formed (search_city (city (demo_cells "Paris"))) = true
  ∧ geocoder demo_network (search_city (city (demo_cells "Paris"))) =
      Fulfilled (Response true (Parsed [Place "48.8566" "2.3522" "Paris, France"]))
  ∧ forecaster demo_network "48.8566" "2.3522" =
      Fulfilled (Response true (Parsed demo_forecast))
  ∧ ∃ c tides,
      Success_state (state (submit demo_network (demo_cells "Paris"))) c tides
      ∧ c_location c = "Paris, France".
Proof.
  assert (Hwf : well_formed (search_city (city (demo_cells "Paris"))) = true)
    by reflexivity.
  assert (Hgeo : geocoder demo_network (search_city (city (demo_cells "Paris"))) =
                 Fulfilled (Response true
                   (Parsed [Place "48.8566" "2.3522" "Paris, France"])))
    by reflexivity.
  assert (Hfc : forecaster demo_network "48.8566" "2.3522" =
                Fulfilled (Response true (Parsed demo_forecast))) by reflexivity.
  split; [exact Hwf |]. split; [exact Hgeo |]. split; [exact Hfc |].
  destruct (fetchWeather_tide_optional demo_network _ _ _ _ Hwf Hgeo Hfc)
    as (c & tides & Hstate & Hname & _).
  exists c, tides. split; [exact Hstate | exact Hname].
Defined.

(** Scenario C: a blank input. *)
Lemma fetchWeather_blank_city_witness :
  forallb is_white_space (city (demo_cells "   ")) = true
  ∧ trace (submit demo_network (demo_cells "   ")) =
      trace (submit demo_network (setCity (demo_cells "   ") (of_ascii "Marseille"))).
Proof.
  assert (Hblank : forallb is_white_space (city (demo_cells "   ")) = true)
    by reflexivity.
  split; [exact Hblank |].
  exact (proj1 (proj2 (proj2 (fetchWeather_blank_city demo_network _ Hblank)))).
Defined.

(** A tide answer of eight events. *)
Lemma fetchTideData_window_and_events_witness :
  demo_extremes ≠ []
  ∧ tide_service demo_tidal_network "48.8566" "2.3522"
      (clock demo_tidal_network / 1000) 172800 =
      Fulfilled (Response true (Parsed (TideReply (Some demo_extremes))))
  ∧ fetchTideData demo_tidal_network "48.8566" "2.3522"
      (World (demo_cells "Paris") []) =
      (Normal (Some (take 6 (tide_of_extreme <$> demo_extremes))),
       World (demo_cells "Paris") [@GetTides demo_runtime "48.8566" "2.3522" 1700000000 172800]).
Proof.
  assert (Hne : demo_extremes ≠ []) by discriminate.
  assert (Hanswer : tide_service demo_tidal_network "48.8566" "2.3522"
                      (clock demo_tidal_network / 1000) 172800 =
                    Fulfilled (Response true (Parsed (TideReply (Some demo_extremes)))))
    by reflexivity.
  split; [exact Hne |]. split; [exact Hanswer |].
  exact (proj1 (@fetchTideData_window_and_events demo_runtime demo_tidal_network
                  "48.8566" "2.3522" demo_extremes
                  (World (demo_cells "Paris") []) Hne Hanswer)).
Defined.

End Scenarios.

(** * More on the interpreter *)

Module WeatherInterpreterMore.
Import WeatherInterpreter WeatherInterpreterFacts.

Lemma thermometer_range (code : Z) (isDay : bool) :
  getWeatherIcon code isDay = thermometer → 87 ≤ code ≤ 94.
Proof.
  unfold getWeatherIcon.
  split_thresholds; destruct isDay; intros Heq; first [discriminate Heq | lia].
Qed.

Lemma fallback_codes_unknown (code : Z) : 87 ≤ code ≤ 94 → code ∉ known_codes.
Proof.
  intros Hr Hin. unfold known_codes in Hin.
  repeat (apply elem_of_cons in Hin as [-> | Hin]; [lia |]).
  by apply elem_of_nil in Hin.
Qed.

Lemma known_codes_described :
  Forall (λ c, getWeatherDescription c ≠ "Unknown") known_codes.
Proof. apply (bool_decide_unpack _). vm_compute. exact I. Qed.

Lemma known_codes_distinctly_described :
  Forall (λ c1, Forall (λ c2, getWeatherDescription c1 = getWeatherDescription c2 → c1 = c2)
                  known_codes) known_codes.
Proof. apply (bool_decide_unpack _). vm_compute. exact I. Qed.

(** X1. Whenever the icon is the thermometer fallback the code is none of
    the described ones and the description is "Unknown": a code that has a
    description never shows the fallback icon. *)
Theorem fallback_icon_has_no_description (code : Z) (isDay : bool) :
  getWeatherIcon code isDay = thermometer →
  (code ∉ known_codes) ∧ getWeatherDescription code = "Unknown".
Proof.
  intros Hicon. apply thermometer_range, fallback_codes_unknown in Hicon.
  split; [exact Hicon |].
  unfold getWeatherDescription. by rewrite descriptions_lookup_unknown.
Qed.

Lemma fallback_icon_has_no_description_witness :
  getWeatherIcon 90 true = thermometer
  ∧ (90 ∉ known_codes) ∧ getWeatherDescription 90 = "Unknown".
Proof.
  assert (Hicon : getWeatherIcon 90 true = thermometer) by reflexivity.
  split; [exact Hicon |].
  exact (fallback_icon_has_no_description 90 true Hicon).
Defined.

(** X2. The day flag changes the icon exactly for the codes up to 3 (the
    negative ones included); above 3 day and night show the same symbol. *)
Theorem day_flag_matters_up_to_3 (code : Z) :
  getWeatherIcon code true = getWeatherIcon code false ↔ 3 < code.
Proof.
  unfold getWeatherIcon.
  split_thresholds;
    (split; [intros Heq; first [discriminate Heq | lia]
            | intros Hr; first [reflexivity | lia]]).
Qed.

(** X3. The description is "Unknown" for the codes outside the table and
    for no code of the table, and two codes of the table never share a
    description. *)
Theorem description_unknown_iff :
  (∀ code : Z, getWeatherDescription code = "Unknown" ↔ code ∉ known_codes)
  ∧ (∀ c1 c2 : Z, c1 ∈ known_codes → c2 ∈ known_codes →
       getWeatherDescription c1 = getWeatherDescription c2 → c1 = c2).
Proof.
  split.
  - intros code. split.
    + intros Hu Hin.
      by apply (proj1 (Forall_forall _ _) known_codes_described code Hin).
    + intros Hout. unfold getWeatherDescription.
      by rewrite descriptions_lookup_unknown.
  - intros c1 c2 H1 H2.
    pose proof (proj1 (Forall_forall _ _) known_codes_distinctly_described c1 H1) as H.
    exact (proj1 (Forall_forall _ _) H c2 H2).
Qed.

Lemma description_unknown_iff_witness :
  (45 ∈ known_codes) ∧ (48 ∈ known_codes)
  ∧ (getWeatherDescription 45 = getWeatherDescription 48 → 45 = 48).
Proof.
  assert (H1 : 45 ∈ known_codes) by (apply (bool_decide_unpack _); exact I).
  assert (H2 : 48 ∈ known_codes) by (apply (bool_decide_unpack _); exact I).
  split; [exact H1 |]. split; [exact H2 |].
  exact (proj2 description_unknown_iff 45 48 H1 H2).
Defined.

End WeatherInterpreterMore.

(** * More on the search text *)

Section SearchCityFacts.

Lemma trim_start_snoc (l : text) (u : N) :
  is_white_space u = false → trim_start (l ++ [u]) = trim_start l ++ [u].
Proof.
  intros Hu. induction l as [| v l IH]; simpl; [by rewrite Hu |].
  by destruct (is_white_space v).
Qed.

Lemma trim_start_split (s : text) :
  ∃ pre : text, s = pre ++ trim_start s ∧ forallb is_white_space pre = true.
Proof.
  induction s as [| u s (pre & Hs & Hpre)]; simpl; [by exists [] |].
  destruct (is_white_space u) eqn:Hu; [| by exists []].
  exists (u :: pre). simpl. rewrite Hu, Hpre. split; [by f_equal | done].
Qed.

Lemma trim_end_split (s : text) :
  ∃ post : text, s = trim_end s ++ post ∧ forallb is_white_space post = true.
Proof.
  destruct (trim_start_split (reverse s)) as (pre & Hs & Hpre).
  exists (reverse pre). split; [| by rewrite forallb_reverse].
  unfold trim_end. rewrite <- reverse_app, <- Hs. by rewrite reverse_involutive.
Qed.

Lemma trim_end_last (s : text) :
  from_option is_white_space false (last (trim_end s)) = false.
Proof.
  unfold trim_end. rewrite last_reverse.
  pose proof (trim_start_head (reverse s)) as H.
  by destruct (trim_start (reverse s)).
Qed.

Lemma trim_end_cons (u : N) (s : text) :
  is_white_space u = false → ∃ s' : text, trim_end (u :: s) = u :: s'.
Proof.
  intros Hu. unfold trim_end.
  rewrite reverse_cons, (trim_start_snoc _ _ Hu), reverse_snoc. eauto.
Qed.

Lemma trim_head (s : text) :
  from_option is_white_space false (head (trim s)) = false.
Proof.
  unfold trim. pose proof (trim_start_head s) as H.
  destruct (trim_start s) as [| u t]; [done |].
  destruct (trim_end_cons u t H) as (s' & ->). exact H.
Qed.

Lemma trim_start_fixed (s : text) :
  from_option is_white_space false (head s) = false → trim_start s = s.
Proof. destruct s as [| u s]; simpl; [done |]. by intros ->. Qed.

Lemma trim_end_fixed (s : text) :
  from_option is_white_space false (last s) = false → trim_end s = s.
Proof.
  intros H. unfold trim_end. rewrite trim_start_fixed.
  - apply reverse_involutive.
  - by rewrite head_reverse.
Qed.

Lemma trim_split (s : text) :
  ∃ pre post : text,
    s = pre ++ trim s ++ post
    ∧ forallb is_white_space pre = true ∧ forallb is_white_space post = true.
Proof.
  destruct (trim_start_split s) as (pre & Hs & Hpre).
  destruct (trim_end_split (trim_start s)) as (post & Ht & Hpost).
  exists pre, post. unfold trim. by rewrite <- Ht.
Qed.

Lemma trim_trim (s : text) : trim (trim s) = trim s.
Proof.
  unfold trim at 1. rewrite trim_start_fixed by apply trim_head.
  apply trim_end_fixed. unfold trim. apply trim_end_last.
Qed.

(** X4. The text sent to the geocoder is never empty and neither starts nor
    ends with white space; searching it again changes nothing. It is
    "Marseille" when nothing but white space was typed, and otherwise the
    typed text with white space cut off at both ends only. *)
Theorem search_city_hygiene (typed : text) :
  search_city typed ≠ []
  ∧ from_option is_white_space false (head (search_city typed)) = false
  ∧ from_option is_white_space false (last (search_city typed)) = false
  ∧ search_city (search_city typed) = search_city typed
  ∧ (forallb is_white_space typed = true ∧ search_city typed = of_ascii "Marseille"
     ∨ forallb is_white_space typed = false
       ∧ ∃ pre post : text,
           typed = pre ++ search_city typed ++ post
           ∧ forallb is_white_space pre = true
           ∧ forallb is_white_space post = true).
Proof.
  unfold search_city at 1 2 3 5 6.
  pose proof (trim_head typed) as Hh. pose proof (trim_end_last (trim_start typed)) as Hl.
  pose proof (trim_split typed) as Hsplit. pose proof (trim_blank typed) as Hb.
  pose proof (trim_trim typed) as Htt.
  fold (trim typed) in Hl. unfold search_city.
  destruct (trim typed) as [| u t] eqn:Ht.
  - split; [by vm_compute |]. do 3 (split; [reflexivity |]).
    left. split; [by apply Hb | reflexivity].
  - rewrite Htt. split; [discriminate |]. split; [exact Hh |].
    split; [exact Hl |]. split; [reflexivity |].
    right. split; [| exact Hsplit].
    destruct (forallb is_white_space typed); [| reflexivity].
    discriminate (proj2 Hb eq_refl).
Qed.

End SearchCityFacts.

(** * More on the fetchers and the handler *)

Section PipelineMore.
Context `{rt : JsRuntime} (net : network).

(** X5. Of a geocoding answer with matches [getCoordinates] reads the first
    one only: it returns its coordinates through [parseFloat] and its display
    name whatever the other matches are, after exactly one request and
    without a write to the cells. *)
Theorem getCoordinates_first_match
    (q : text) (first : place) (others : list place) (w : world) :
  well_formed q = true →
  geocoder net q = Fulfilled (Response true (Parsed (first :: others))) →
  getCoordinates net q w =
    (Normal (Location (parseFloat (lat first)) (parseFloat (lon first))
               (display_name first)),
     World (state w) (trace w ++ [GetGeocode q])).
Proof.
  intros Hwf Hgeo. destruct w as [s tr].
  unfold getCoordinates, encodeURIComponent, fetch, response_json, bind, emit, ret.
  rewrite Hwf, Hgeo. reflexivity.
Qed.

(** X6. [fetchTideData] never throws and never writes a cell. It makes
    exactly one request, for 172800 seconds from the call time, and logs at
    most one line after it. What it returns is null or a list of one to six
    events. *)
Theorem fetchTideData_absorbs (la lo : num) (w : world) :
  ∃ (r : option (list tide)) (logged : list event),
    fetchTideData net la lo w =
      (Normal r,
       World (state w)
         (trace w ++ GetTides la lo (clock net / 1000) 172800 :: logged))
    ∧ (logged = [] ∨ ∃ m, logged = [ConsoleLog "Tide data unavailable:" m])
    ∧ from_option (λ l : list tide, 1 ≤ length l ≤ 6)%nat True r.
Proof.
  destruct w as [s tr].
  unfold fetchTideData, try_catch, bind, fetch, emit, response_json, ret, throw.
  change (86400 * 2) with 172800. simpl.
  destruct (tide_service net _ _ _ _) as [msg | [[] [msg | [[[| e l] |]]]]];
    simpl; rewrite <- ?app_assoc; simpl;
    eexists _, _; (split; [reflexivity |]); (split; [eauto |]);
    try exact I.
  simpl. match goal with |- context [take 5 ?x] => pose proof (firstn_le_length 5 x) end.
  lia.
Qed.

(** X7. The line "Tide data unavailable:" is logged exactly when the tide
    request was rejected or its 2xx body could not be used, with the message
    of that error. A non-2xx answer and an answer without events are dropped
    without a trace in the console. *)
Theorem fetchTideData_logs_exceptions_only (la lo : num) (w : world) :
  let reply := tide_service net la lo (clock net / 1000) 172800 in
  let after := trace (snd (fetchTideData net la lo w)) in
  match reply with
  | Rejected m | Fulfilled (Response true (Unusable m)) =>
      after = trace w ++ [GetTides la lo (clock net / 1000) 172800;
                          ConsoleLog "Tide data unavailable:" m]
  | _ => after = trace w ++ [GetTides la lo (clock net / 1000) 172800]
  end.
Proof.
  destruct w as [s tr].
  unfold fetchTideData, try_catch, bind, fetch, emit, response_json, ret, throw.
  change (86400 * 2) with 172800. simpl.
  destruct (tide_service net _ _ _ _) as [msg | [[] [msg | [[[| e l] |]]]]];
    simpl; rewrite <- ?app_assoc; reflexivity.
Qed.

(** X8. When the geocoding request leaves and fails (rejected, non-2xx,
    unusable body, or no match), the submission ends in failure with the
    message of that failure, and the geocoding request is the only request
    made. *)
Theorem fetchWeather_geocoding_failure (s : cells) (message : string) :
  well_formed (search_city (city s)) = true →
  geocode_failure (geocoder net (search_city (city s))) = Some message →
  Failure_state (state (submit net s)) message
  ∧ requests (trace (submit net s)) = [GetGeocode (search_city (city s))].
Proof.
  destruct s as [typed w0 t0 l0 e0 f0]. simpl. intros Hwf Hfail.
  unfold Failure_state, requests. run. rewrite Hwf. run.
  destruct (geocoder net _) as [msg | [[] [msg | [| first others]]]];
    simpl in Hfail; try discriminate Hfail; injection Hfail as <-; run; done.
Qed.

(** X9. When the search text holds a lone surrogate, [encodeURIComponent]
    throws: the submission ends in failure with the engine's message and no
    request is made at all. *)
Theorem fetchWeather_uri_error (s : cells) :
  well_formed (search_city (city s)) = false →
  Failure_state (state (submit net s)) uri_malformed
  ∧ trace (submit net s) = prologue ++ [SetError uri_malformed; SetLoading false]
  ∧ requests (trace (submit net s)) = [].
Proof.
  destruct s as [typed w0 t0 l0 e0 f0]. simpl. intros Hwf.
  unfold Failure_state, requests. run. rewrite Hwf. run. done.
Qed.

(** X10. A 2xx forecast answer whose body cannot be used fails the
    submission like a failed request: the error cell gets the message, no
    result is written and no tide request is made. *)
Theorem fetchWeather_unusable_forecast
    (s : cells) (first : place) (others : list place) (message : string) :
  well_formed (search_city (city s)) = true →
  geocoder net (search_city (city s)) =
    Fulfilled (Response true (Parsed (first :: others))) →
  forecaster net (parseFloat (lat first)) (parseFloat (lon first)) =
    Fulfilled (Response true (Unusable message)) →
  Failure_state (state (submit net s)) message
  ∧ requests (trace (submit net s)) =
      [GetGeocode (search_city (city s));
       GetForecast (parseFloat (lat first)) (parseFloat (lon first))]
  ∧ existsb is_partial_result (trace (submit net s)) = false.
Proof.
  destruct s as [typed w0 t0 l0 e0 f0]. simpl. intros Hwf Hgeo Hfc.
  unfold Failure_state, requests.
  run. rewrite Hwf. run. rewrite Hgeo. run. rewrite Hfc. run. done.
Qed.


Lemma tide_of_extreme_label (e : extreme) :
  t_type (tide_of_extreme e) = "High Tide" ∨ t_type (tide_of_extreme e) = "Low Tide".
Proof. unfold tide_of_extreme. simpl. case_decide; [by left | by right]. Qed.

(** X12. A result left by a submission is consistent: its description and
    icon are those of its own code and day flag, and it stands with an empty
    error cell and loading off, whatever the cells held before. *)
Theorem fetchWeather_result_consistent (s : cells) (c : conditions) :
  weatherData (state (submit net s)) = Some c →
  description c = WeatherInterpreter.getWeatherDescription (weatherCode c)
  ∧ icon c = WeatherInterpreter.getWeatherIcon (weatherCode c) (negb (isDay c =? 0))
  ∧ error (state (submit net s)) = ""
  ∧ loading (state (submit net s)) = false.
Proof.
  destruct s as [typed w0 t0 l0 e0 f0].
  run_all; intros Hc; first [discriminate Hc | injection Hc as <-]; done.
Qed.

(** X13. Tide data left by a submission is never an empty list: it is one
    to six events, each labelled "High Tide" or "Low Tide", and it is there
    only together with a result. *)
Theorem fetchWeather_tides_invariant (s : cells) (l : list tide) :
  tideData (state (submit net s)) = Some l →
  (1 ≤ length l ≤ 6)%nat
  ∧ Forall (λ t, t_type t = "High Tide" ∨ t_type t = "Low Tide") l
  ∧ is_Some (weatherData (state (submit net s))).
Proof.
  destruct s as [typed w0 t0 l0 e0 f0].
  run_all; intros Hl; first [discriminate Hl | injection Hl as <-].
  split; [| split; [| by eexists]].
  - simpl. match goal with |- context [take 5 ?x] => pose proof (firstn_le_length 5 x) end.
    lia.
  - apply Forall_cons. split; [apply tide_of_extreme_label |].
    apply Forall_take, Forall_fmap, Forall_forall. intros x _.
    apply tide_of_extreme_label.
Qed.

Lemma submit_fresh (s : cells) :
  submit net s = submit net (fresh (city s) (isFullscreen s)).
Proof. destruct s as [typed w0 t0 l0 e0 f0]. unfold fresh. run_all; reflexivity. Qed.

Lemma submit_keeps (s : cells) :
  city (state (submit net s)) = city s
  ∧ isFullscreen (state (submit net s)) = isFullscreen s.
Proof. destruct s as [typed w0 t0 l0 e0 f0]. run_all; done. Qed.

(** X14. A submission depends on the cells only through the city (and
    carries the fullscreen flag along): it runs as from fresh cells, whatever
    result, tide data, error or loading flag was there. It writes neither the
    city nor the fullscreen flag, so submitting again from where it ended
    gives the same cells again. *)
Theorem fetchWeather_history_independent (s : cells) :
  submit net s = submit net (fresh (city s) (isFullscreen s))
  ∧ city (state (submit net s)) = city s
  ∧ isFullscreen (state (submit net s)) = isFullscreen s
  ∧ state (submit net (state (submit net s))) = state (submit net s).
Proof.
  split; [apply submit_fresh |]. destruct (submit_keeps s) as [Hc Hf].
  split; [exact Hc |]. split; [exact Hf |].
  rewrite (submit_fresh (state (submit net s))), Hc, Hf.
  by rewrite <- submit_fresh.
Qed.

(** X15. After a submission the button is enabled again and the box shows
    what was typed; the page never shows the error line together with the
    results panel, the tide section or the modal; and the tide section shows
    exactly the tide data, one item per event. *)
Theorem render_after_submit (s : cells) :
  button_disabled (render (state (submit net s))) = false
  ∧ button_label (render (state (submit net s))) = "Get Weather"
  ∧ input_value (render (state (submit net s))) = city s
  ∧ (error_line (render (state (submit net s))) = None
     ∨ result_panel (render (state (submit net s))) = None
       ∧ tide_section (render (state (submit net s))) = None
       ∧ fullscreen_modal (render (state (submit net s))) = None)
  ∧ tide_section (render (state (submit net s))) =
      option_map (map render_tide) (tideData (state (submit net s))).
Proof.
  destruct s as [typed w0 t0 l0 e0 f0]. unfold render.
  run_all; simpl; (do 3 (split; [reflexivity |])); (split; [| reflexivity]);
    first [by left | right; by destruct f0].
Qed.

(** X16. The fullscreen flag outlives a submission: with the modal left
    open, the modal shows whatever result the submission ends with (the new
    place after a success, nothing after a failure); with it closed, no
    submission opens it. *)
Theorem fullscreen_across_submit (s : cells) :
  fullscreen_modal (render (state (submit net (setIsFullscreen s true)))) =
    result_panel (render (state (submit net s)))
  ∧ fullscreen_modal (render (state (submit net (setIsFullscreen s false)))) = None.
Proof.
  destruct s as [typed w0 t0 l0 e0 f0]. unfold render, setIsFullscreen.
  run_all; done.
Qed.

(** X17. An upstream event labelled "High" is shown as a high tide (class
    [high-tide], the up arrow, the text "High Tide"); an event with any
    other label is shown as a low tide. *)
Theorem render_tide_of_extreme (e : extreme) :
  render_tide (tide_of_extreme e) =
    if decide (type e = "High") then
      TideItem "tide-item high-tide" "‚¨ÜÔ∏è" "High Tide" (tide_of_extreme e)
    else
      TideItem "tide-item low-tide" "‚¨áÔ∏è" "Low Tide" (tide_of_extreme e).
Proof.
  unfold render_tide.
  assert (Ht : t_type (tide_of_extreme e) =
               if decide (type e = "High") then "High Tide" else "Low Tide")
    by reflexivity.
  rewrite !Ht. by case_decide.
Qed.

End PipelineMore.

(** * The page without tides against the full page *)

Ltac run_both :=
  cbv beta iota zeta delta
    [submit fetchWeather getCoordinates fetchTideData fetch response_json
     encodeURIComponent emit setLoading setError setWeatherData setTideData
     read_city
     try_catch try_finally bind ret throw apply_event
     state trace ok json extremes loc_lat loc_lon loc_name
     city weatherData tideData loading error isFullscreen
     Basic.submit Basic.fetchWeather Basic.getCoordinates Basic.fetch
     Basic.response_json Basic.encodeURIComponent Basic.emit Basic.setLoading
     Basic.setError Basic.setWeatherData Basic.read_city Basic.try_catch
     Basic.try_finally Basic.bind Basic.ret Basic.throw Basic.apply_event
     Basic.state Basic.trace Basic.city Basic.weatherData Basic.loading
     Basic.error basic_cells
     fst snd negb app].

Section BasicFacts.
Context `{rt : JsRuntime} (net : network).

(** X18. The page without tides and the full page agree: on the same
    network and city the shorter handler makes the same requests and writes
    as the full one, tide request, tide write and log line left out, and
    ends with the same error, loading flag and result (the result without
    its coordinates). *)
Theorem basic_fetchWeather_simulates (s : cells) :
  Basic.submit net (basic_cells s) =
    Basic.World (basic_cells (state (submit net s)))
      (omap basic_event (trace (submit net s))).
Proof.
  destruct s as [typed w0 t0 l0 e0 f0].
  run_both; repeat (answer; run_both); reflexivity.
Qed.

End BasicFacts.

(** * More runs on the concrete networks *)

Section MoreScenarios.

Lemma getCoordinates_first_match_witness :
  well_formed (of_ascii "Paris") = true
  ∧ geocoder demo_network (of_ascii "Paris") =
      Fulfilled (Response true (Parsed [Place "48.8566" "2.3522" "Paris, France"]))
  ∧ getCoordinates demo_network (of_ascii "Paris") (World (demo_cells "Paris") []) =
      (Normal (@Location demo_runtime "48.8566" "2.3522" "Paris, France"),
       World (demo_cells "Paris") [GetGeocode (of_ascii "Paris")]).
Proof.
  assert (Hwf : well_formed (of_ascii "Paris") = true) by reflexivity.
  assert (Hgeo : geocoder demo_network (of_ascii "Paris") =
                 Fulfilled (Response true
                   (Parsed [Place "48.8566" "2.3522" "Paris, France"])))
    by reflexivity.
  split; [exact Hwf |]. split; [exact Hgeo |].
  exact (getCoordinates_first_match demo_network _ _ _
           (World (demo_cells "Paris") []) Hwf Hgeo).
Defined.

(** The geocoder answers 503. *)
Lemma fetchWeather_geocoding_failure_witness :
  well_formed (search_city (city (demo_cells "Paris"))) = true
  ∧ geocode_failure (geocoder demo_down_network (search_city (city (demo_cells "Paris")))) =
      Some "Failed to fetch location data"
  ∧ Failure_state (state (submit demo_down_network (demo_cells "Paris")))
      "Failed to fetch location data".
Proof.
  assert (Hwf : well_formed (search_city (city (demo_cells "Paris"))) = true)
    by reflexivity.
  assert (Hfail : geocode_failure
                    (geocoder demo_down_network (search_city (city (demo_cells "Paris")))) =
                  Some "Failed to fetch location data") by reflexivity.
  split; [exact Hwf |]. split; [exact Hfail |].
  exact (proj1 (fetchWeather_geocoding_failure demo_down_network _ _ Hwf Hfail)).
Defined.

(** Half of a surrogate pair in the box. *)
Lemma fetchWeather_uri_error_witness :
  well_formed (search_city (city (@fresh demo_runtime [0xD83C%N] false))) = false
  ∧ requests (trace (submit demo_network (@fresh demo_runtime [0xD83C%N] false))) = [].
Proof.
  assert (Hwf : well_formed (search_city (city (@fresh demo_runtime [0xD83C%N] false))) = false)
    by reflexivity.
  split; [exact Hwf |].
  exact (proj2 (proj2 (fetchWeather_uri_error demo_network _ Hwf))).
Defined.

(** The forecast body is an HTML error page. *)
Lemma fetchWeather_unusable_forecast_witness :
  well_formed (search_city (city (demo_cells "Paris"))) = true
  ∧ geocoder demo_garbled_network (search_city (city (demo_cells "Paris"))) =
      Fulfilled (Response true (Parsed [Place "48.8566" "2.3522" "Paris, France"]))
  ∧ forecaster demo_garbled_network "48.8566" "2.3522" =
      Fulfilled (Response true (Unusable "Unexpected token < in JSON"))
  ∧ Failure_state (state (submit demo_garbled_network (demo_cells "Paris")))
      "Unexpected token < in JSON".
Proof.
  assert (Hwf : well_formed (search_city (city (demo_cells "Paris"))) = true)
    by reflexivity.
  assert (Hgeo : geocoder demo_garbled_network (search_city (city (demo_cells "Paris"))) =
                 Fulfilled (Response true
                   (Parsed [Place "48.8566" "2.3522" "Paris, France"])))
    by reflexivity.
  assert (Hfc : forecaster demo_garbled_network "48.8566" "2.3522" =
                Fulfilled (Response true (Unusable "Unexpected token < in JSON")))
    by reflexivity.
  split; [exact Hwf |]. split; [exact Hgeo |]. split; [exact Hfc |].
  exact (proj1 (fetchWeather_unusable_forecast demo_garbled_network _ _ _ _ Hwf Hgeo Hfc)).
Defined.

Lemma fetchWeather_result_consistent_witness :
  weatherData (state (submit demo_network (demo_cells "Paris"))) =
    Some (@Conditions demo_runtime "Paris, France" "48.8566" "2.3522"
            "21.3" "20.1" "40" "12" "1013.2" 1 1 "Mainly clear"
            WeatherInterpreter.partly_cloudy_day)
  ∧ error (state (submit demo_network (demo_cells "Paris"))) = "".
Proof.
  assert (Hc : weatherData (state (submit demo_network (demo_cells "Paris"))) =
               Some (@Conditions demo_runtime "Paris, France" "48.8566" "2.3522"
                       "21.3" "20.1" "40" "12" "1013.2" 1 1 "Mainly clear"
                       WeatherInterpreter.partly_cloudy_day)) by reflexivity.
  split; [exact Hc |].
  exact (proj1 (proj2 (proj2 (fetchWeather_result_consistent demo_network _ _ Hc)))).
Defined.

Lemma fetchWeather_tides_invariant_witness :
  tideData (state (submit demo_tidal_network (demo_cells "Paris"))) =
    Some (take 6 (tide_of_extreme <$> demo_extremes))
  ∧ (1 ≤ length (take 6 (tide_of_extreme <$> demo_extremes)) ≤ 6)%nat.
Proof.
  assert (Hl : tideData (state (submit demo_tidal_network (demo_cells "Paris"))) =
               Some (take 6 (tide_of_extreme <$> demo_extremes))) by reflexivity.
  split; [exact Hl |].
  exact (proj1 (fetchWeather_tides_invariant demo_tidal_network _ _ Hl)).
Defined.

End MoreScenarios.

(** * White space, surrogates and the URIError *)

Section EncodingFacts.

Lemma white_space_no_surrogate (u : N) :
  is_white_space u = true → is_high_surrogate u = false ∧ is_low_surrogate u = false.
Proof.
  unfold is_white_space, is_high_surrogate, is_low_surrogate. intros H.
  rewrite !orb_true_iff, !andb_true_iff, !N.eqb_eq, !N.leb_le in H.
  split; apply andb_false_iff; rewrite !N.leb_gt; lia.
Qed.

Lemma well_formed_skip (pre x : text) :
  forallb is_white_space pre = true → well_formed (pre ++ x) = well_formed x.
Proof.
  induction pre as [| u pre IH]; simpl; [done |].
  intros [Hu Hpre]%andb_true_iff.
  destruct (white_space_no_surrogate u Hu) as [-> ->]. by apply IH.
Qed.

Lemma well_formed_blank (s : text) :
  forallb is_white_space s = true → well_formed s = true.
Proof.
  intros H. rewrite <- (app_nil_r s). by rewrite well_formed_skip.
Qed.

Lemma well_formed_app_blank (x post : text) :
  forallb is_white_space post = true → well_formed (x ++ post) = well_formed x.
Proof.
  intros Hpost.
  assert (H : well_formed (x ++ post) = well_formed x
              ∧ ∀ u, well_formed (u :: x ++ post) = well_formed (u :: x));
    [| exact (proj1 H)].
  induction x as [| a x [IH1 IH2]].
  - split; [by apply well_formed_blank |]. intros u. simpl.
    destruct (is_high_surrogate u).
    + destruct post as [| v post]; [done |]. simpl in Hpost.
      apply andb_true_iff in Hpost as [Hv _].
      by destruct (white_space_no_surrogate v Hv) as [_ ->].
    + destruct (is_low_surrogate u); [done |]. by apply well_formed_blank.
  - split; [apply IH2 |]. intros u. simpl in *.
    destruct (is_high_surrogate u); [by rewrite IH1 |].
    destruct (is_low_surrogate u); [done | apply IH2].
Qed.

Lemma well_formed_no_surrogate (s : text) :
  forallb no_surrogate s = true → well_formed s = true.
Proof.
  induction s as [| u s IH]; simpl; [done |].
  intros [Hu Hs]%andb_true_iff. unfold no_surrogate in Hu.
  apply negb_true_iff, orb_false_iff in Hu as [-> ->]. by apply IH.
Qed.

(** X19. Cutting the white space and putting in the default never makes a
    text unencodable nor mends one: the search text has a lone surrogate
    exactly when the typed text has one. A typed text without any surrogate
    code unit therefore always gets its geocoding request. *)
Theorem search_city_well_formed (typed : text) :
  well_formed (search_city typed) = well_formed typed
  ∧ (forallb no_surrogate typed = true → well_formed (search_city typed) = true).
Proof.
  assert (H : well_formed (search_city typed) = well_formed typed).
  { destruct (trim_split typed) as (pre & post & Hs & Hpre & Hpost).
    unfold search_city. destruct (trim typed) as [| u t] eqn:Ht.
    - apply trim_blank in Ht. by rewrite (well_formed_blank typed Ht).
    - rewrite Hs. by rewrite well_formed_skip, well_formed_app_blank. }
  split; [exact H |]. intros Hn. rewrite H. by apply well_formed_no_surrogate.
Qed.

Lemma search_city_well_formed_witness :
  forallb no_surrogate (of_ascii " New York ") = true
  ∧ well_formed (search_city (of_ascii " New York ")) = true.
Proof.
  assert (Hn : forallb no_surrogate (of_ascii " New York ") = true) by reflexivity.
  split; [exact Hn |].
  exact (proj2 (search_city_well_formed (of_ascii " New York ")) Hn).
Defined.

End EncodingFacts.
